(** * The audit endpoint: [POST /api/audit]

    A shallow embedding of [apps/api/src/app/api/audit/route.ts] and of the
    shared types of [packages/types/index.ts].

    JavaScript strings are sequences of UTF-16 code units; values thrown and
    caught, the calls to the console, to [req.json()] and to the completion
    client are threaded through a small trace-and-exception monad. *)

From Stdlib Require Import String Ascii NArith ZArith List DecimalString.
From Stdlib Require Import Floats.SpecFloat.
From stdpp Require Import base option list gmap.

Local Open Scope N_scope.

(** ** Strings *)

Module JsString.

(** A string is the list of its UTF-16 code units. *)
Definition t : Type := list N.

(** A source literal (ASCII only in this code base). *)
Definition lit (s : string) : t :=
  List.map N_of_ascii (list_ascii_of_string s).

Definition eqb (a b : t) : bool := bool_decide (a = b).

(** [WhiteSpace] and [LineTerminator] of ECMA-262, the code units that
    [String.prototype.trim] strips. *)
Definition is_white_space (c : N) : bool :=
  ((9 <=? c) && (c <=? 13))
  || (c =? 32) || (c =? 160) || (c =? 5760)
  || ((8192 <=? c) && (c <=? 8202))
  || (c =? 8232) || (c =? 8233) || (c =? 8239) || (c =? 8287)
  || (c =? 12288) || (c =? 65279).

Fixpoint trimStart (s : t) : t :=
  match s with
  | c :: s' => if is_white_space c then trimStart s' else s
  | [] => []
  end.

Definition trimEnd (s : t) : t := rev (trimStart (rev s)).

(** [String.prototype.trim] *)
Definition trim (s : t) : t := trimEnd (trimStart s).

Fixpoint startsWith (p s : t) : bool :=
  match p, s with
  | [], _ => true
  | a :: p', b :: s' => (a =? b) && startsWith p' s'
  | _ :: _, [] => false
  end.

(** [String.prototype.includes] *)
Fixpoint includes (s sub : t) : bool :=
  startsWith sub s ||
  match s with
  | [] => false
  | _ :: s' => includes s' sub
  end.

(** [ToString] of a non-negative integral Number. *)
Definition of_N (n : N) : t :=
  lit (NilZero.string_of_uint (N.to_uint n)).

End JsString.

Abbreviation jsstring := JsString.t.
Abbreviation lit := JsString.lit.

(** ** Values *)

(** The values [JSON.parse] produces, and [undefined]. *)
#[warnings="-register-all"]
Inductive jsvalue : Type :=
| JUndefined
| JNull
| JBoolean (b : bool)
| JNumber (x : spec_float)
| JString (s : jsstring)
| JArray (elements : list jsvalue)
| JObject (properties : gmap jsstring jsvalue).

(** [ToBoolean] *)
Definition ToBoolean (v : jsvalue) : bool :=
  match v with
  | JUndefined | JNull => false
  | JBoolean b => b
  | JNumber (S754_zero _) | JNumber S754_nan => false
  | JNumber _ => true
  | JString s => negb (JsString.eqb s [])
  | JArray _ | JObject _ => true
  end.

(** The [typeof] operator *)
Definition typeof (v : jsvalue) : jsstring :=
  match v with
  | JUndefined => lit "undefined"
  | JBoolean _ => lit "boolean"
  | JNumber _ => lit "number"
  | JString _ => lit "string"
  | JNull | JArray _ | JObject _ => lit "object"
  end.

(** ** Thrown values

    What a [catch] clause can receive, by the classes the handler tells
    apart with [instanceof]. *)
Inductive thrown : Type :=
| SyntaxError (message : jsstring)
| APIError (status : option N) (name message : jsstring)
    (* [OpenAI.APIError]: [status: number | undefined] *)
| Error (name message : jsstring)
    (* any other instance of [Error]: [Error], [TypeError], ... *)
| NotAnError (v : jsvalue).

(** ** Shared types ([packages/types/index.ts]) *)

Record AuditReport : Type := { aiAudit : option jsstring }.

Record AuditResponse : Type := {
  success : bool;
  results : option AuditReport;
  error : option jsstring
}.

(** ** The completion client *)

Record ChatCompletionMessageParam : Type := {
  role : jsstring;
  content : jsstring
}.

Record ChatCompletionCreateParams : Type := {
  model : jsstring;
  messages : list ChatCompletionMessageParam;
  temperature : spec_float;
  max_tokens : N
}.

(** [content: string | null] *)
Record ChatCompletionMessage : Type := { message_content : option jsstring }.

Record Choice : Type := { message : option ChatCompletionMessage }.

Record ChatCompletion : Type := { choices : list Choice }.

(** How an awaited promise settles. *)
Inductive settled (A : Type) : Type :=
| Fulfilled (a : A)
| Rejected (e : thrown).
Arguments Fulfilled {A} a.
Arguments Rejected {A} e.

(** [openai.chat.completions.create]: the configured client, as the function
    from the parameters of a call to the way the call settles. *)
Definition OpenAI : Type := ChatCompletionCreateParams -> settled ChatCompletion.

(** ** Requests and responses *)

(** A request, by what [await req.json()] yields for its body. *)
Record NextRequest : Type := { json : settled jsvalue }.

Record NextResponse : Type := {
  response_status : N;
  response_body : AuditResponse
}.

(** ** Effects

    A computation leaves the trace of its observable calls and either yields
    a value or throws. *)

Inductive event : Type :=
| ConsoleError (text : jsstring) (detail : option thrown)
| ConsoleLog (text : jsstring)
| RequestJson
| ChatCompletionsCreate (params : ChatCompletionCreateParams).

Definition M (A : Type) : Type := list event * settled A.

Definition ret {A} (a : A) : M A := ([], Fulfilled a).

Definition throw {A} (e : thrown) : M A := ([], Rejected e).

Definition bind {A B} (m : M A) (k : A -> M B) : M B :=
  match m with
  | (tr, Fulfilled a) => let (tr', r) := k a in (tr ++ tr', r)
  | (tr, Rejected e) => (tr, Rejected e)
  end.

(** [try { m } catch (error) { handler }] *)
Definition try_catch {A} (m : M A) (handler : thrown -> M A) : M A :=
  match m with
  | (tr, Fulfilled a) => (tr, Fulfilled a)
  | (tr, Rejected e) => let (tr', r) := handler e in (tr ++ tr', r)
  end.

Definition emit (ev : event) : M unit := ([ev], Fulfilled tt).

Declare Scope js_scope.
Delimit Scope js_scope with js.
Notation "x <- m ;; k" := (bind m (fun x => k))
  (at level 100, m at next level, right associativity) : js_scope.
Notation "m ;; k" := (bind m (fun _ => k))
  (at level 100, right associativity) : js_scope.

Definition console_error (text : jsstring) : M unit := emit (ConsoleError text None).
Definition console_error_with (text : jsstring) (e : thrown) : M unit :=
  emit (ConsoleError text (Some e)).
Definition console_log (text : jsstring) : M unit := emit (ConsoleLog text).

(** [await req.json()] *)
Definition req_json (req : NextRequest) : M jsvalue := ([RequestJson], json req).

(** The statuses a [Response] can be built with: 200 to 599. *)
Definition in_status_range (status : N) : bool :=
  (200 <=? status) && (status <=? 599).

(** The null body statuses of the Fetch standard: a response with one of
    them cannot carry a body. *)
Definition null_body_status (status : N) : bool :=
  (status =? 101) || (status =? 103) || (status =? 204) || (status =? 205)
  || (status =? 304).

(** [NextResponse.json(body, { status })] builds a [Response] with a body:
    it throws a [RangeError] for a status outside 200 to 599 and a
    [TypeError] for a null body status, and otherwise gives the response,
    recorded as its status and the body it serialises. A status is that of
    an HTTP response, three digits; the unsigned-short conversion of larger
    numbers is left out. The wording of the two messages is Node's. *)
Definition NextResponse_json (body : AuditResponse) (status : N) : M NextResponse :=
  if negb (in_status_range status) then
    throw (Error (lit "RangeError")
             (lit "init[" ++ [34] ++ lit "status" ++ [34]
                ++ lit "] must be in the range of 200 to 599, inclusive."))
  else if null_body_status status then
    throw (Error (lit "TypeError")
             (lit "Response constructor: Invalid response status code "
                ++ JsString.of_N status))
  else
    ret {| response_status := status; response_body := body |}.

(** [const { contractCode } = body]: destructuring [null] or [undefined]
    throws a [TypeError]; a plain object gives its own property or
    [undefined]; on a boolean, a number, a string or an array the name
    [contractCode] is neither an index nor a property of the prototype, so
    the result is [undefined]. *)
Definition destructure_contractCode (body : jsvalue) : M jsvalue :=
  match body with
  | JNull =>
      throw (Error (lit "TypeError")
        (lit "Cannot destructure property 'contractCode' of 'body' as it is null."))
  | JUndefined =>
      throw (Error (lit "TypeError")
        (lit "Cannot destructure property 'contractCode' of 'body' as it is undefined."))
  | JObject properties => ret (default JUndefined (properties !! lit "contractCode"))
  | JBoolean _ | JNumber _ | JString _ | JArray _ => ret JUndefined
  end.

(** The string held by a value whose [typeof] is ["string"]: what
    [contractCode.trim()] is called on and what [${contractCode}] splices in.
    The handler reaches neither with another value. *)
Definition string_value (v : jsvalue) : jsstring :=
  match v with
  | JString s => s
  | _ => []
  end.

(** The condition of the validating [if]. *)
Definition missing_or_invalid (contractCode : jsvalue) : bool :=
  negb (ToBoolean contractCode)
  || negb (JsString.eqb (typeof contractCode) (lit "string"))
  || JsString.eqb (JsString.trim (string_value contractCode)) [].

(** A value that is a string or absent ([undefined], [null]), as a value. *)
Definition optional_string (o : option jsstring) : jsvalue :=
  from_option JString JUndefined o.

(** [`${n}`] for [n: number | undefined] *)
Definition template_status (status : option N) : jsstring :=
  match status with
  | Some n => JsString.of_N n
  | None => lit "undefined"
  end.

(** ** The handler *)

(** The template literal of the prompt, before and after [${contractCode}]. *)
Definition prompt_before : jsstring := lit "
        Act as an expert Solidity smart contract security auditor.
        Analyze the following Solidity code for vulnerabilities, security risks, and deviations from best practices. Your analysis should be thorough.

        Identify specific issues including, but not limited to:
        - Reentrancy (Checks, Effects, Interactions pattern)
        - Integer Overflow/Underflow (using SafeMath or Solidity >=0.8.0)
        - Access Control Issues (modifier usage, ownership, authorization logic)
        - Gas Limit Issues / Denial of Service (DoS) vectors (unbounded loops, gas griefing)
        - Timestamp Dependence / Block Variable Reliance (block.timestamp, block.number)
        - Unchecked External Calls / Return Values (call, delegatecall, staticcall)
        - Front-Running Vulnerabilities (e.g., in token approvals, order books)
        - Oracle Manipulation risks
        - Improper Handling or Locking of Ether/Tokens
        - Use of deprecated Solidity features or unsafe practices (e.g., tx.origin)
        - Logic errors leading to unintended state changes or behavior
        - Precision issues with fixed-point numbers or division
        - Delegatecall vulnerabilities

        For each issue found:
        1.  **Vulnerability/Risk:** Clearly describe the issue.
        2.  **Location:** Reference the specific function name(s) and approximate line number(s) if possible.
        3.  **Impact:** Explain the potential negative consequences.
        4.  **Recommendation:** Suggest a concrete mitigation strategy or code fix.
        5.  **Severity:** Assign a severity level (e.g., Critical, High, Medium, Low, Informational).

        Structure your response clearly. If no significant issues are found, state that clearly, but still mention any minor best practice recommendations or areas for gas optimization if applicable.

        Solidity Code to Audit:
        ```solidity
        ".

Definition prompt_after : jsstring := lit "
        ```

        Audit Report:
        ".

Definition prompt_of (contractCode : jsstring) : jsstring :=
  prompt_before ++ contractCode ++ prompt_after.

Section Route.

(** [process.env] *)
Variable process_env : gmap jsstring jsstring.

(** [const openai = new OpenAI({ apiKey: process.env.OPENAI_API_KEY })] *)
Variable openai : OpenAI.

Local Open Scope js_scope.

(** The arguments of the one call to the completion client. *)
Definition completion_params (prompt : jsstring) : ChatCompletionCreateParams :=
  {| model := lit "gpt-4";
     messages := [ {| role := lit "user"; content := prompt |} ];
     temperature := S754_finite false 7205759403792794 (-55) (* 0.2 *);
     max_tokens := 3000 |}.

Definition chat_completions_create (params : ChatCompletionCreateParams)
  : M ChatCompletion :=
  ([ChatCompletionsCreate params], openai params).

(** [completion.choices[0]?.message?.content] *)
Definition first_content (completion : ChatCompletion) : option jsstring :=
  choice ← choices completion !! 0%nat;
  message ← message choice;
  message_content message.

(** The [catch] clause. *)
Definition on_error (error : thrown) : M NextResponse :=
  console_error_with (lit "Error in /api/audit:") error ;;
  let '(errorMessage, statusCode) :=
    match error with
    | SyntaxError message =>
        if JsString.includes message (lit "JSON")
        then (lit "Bad Request: Invalid JSON format in request body.", 400)
        else (lit "Internal Server Error: " ++ message, 500)
    | APIError status name message =>
        (lit "OpenAI API Error: " ++ template_status status ++ lit " "
           ++ name ++ lit " " ++ message,
         match status with
         | Some n => if n =? 0 then 500 else n
         | None => 500
         end)
    | Error _ message => (lit "Internal Server Error: " ++ message, 500)
    | NotAnError _ => (lit "An unexpected error occurred.", 500)
    end in
  let errorResponse :=
    {| success := false; results := None; error := Some errorMessage |} in
  NextResponse_json errorResponse statusCode.

(** The body of the [try] block once [contractCode] has passed validation. *)
Definition audit (contractCode : jsstring) : M NextResponse :=
  let prompt := prompt_of contractCode in
  console_log (lit "Sending request to OpenAI...") ;;
  completion <- chat_completions_create (completion_params prompt) ;;
  console_log (lit "Received response from OpenAI.") ;;
  let aiReportContent := optional_string (first_content completion) in
  if negb (ToBoolean aiReportContent) then
    console_error (lit "OpenAI response content is empty.") ;;
    throw (Error (lit "Error") (lit "Received empty response from AI analysis."))
  else
    let report := {| aiAudit := Some (JsString.trim (string_value aiReportContent)) |} in
    let successResponse :=
      {| success := true; results := Some report; error := None |} in
    NextResponse_json successResponse 200.

(** [export async function POST(req: NextRequest)] *)
Definition POST (req : NextRequest) : M NextResponse :=
  if negb (ToBoolean (optional_string (process_env !! lit "OPENAI_API_KEY"))) then
    console_error (lit "OpenAI API key not configured") ;;
    let errorResponse :=
      {| success := false; results := None;
         error := Some (lit "Server configuration error: Missing API key.") |} in
    NextResponse_json errorResponse 500
  else
    try_catch
      (body <- req_json req ;;
       contractCode <- destructure_contractCode body ;;
       let badRequest :=
         let errorResponse :=
           {| success := false; results := None;
              error := Some (lit "Bad Request: Missing or invalid contractCode in request body.") |} in
         NextResponse_json errorResponse 400 in
       if missing_or_invalid contractCode then badRequest
       else audit (string_value contractCode))
      on_error.

End Route.

(** ** Vocabulary of the properties *)

Definition api_key_configured (process_env : gmap jsstring jsstring) : Prop :=
  ToBoolean (optional_string (process_env !! lit "OPENAI_API_KEY")) = true.

(** The calls to the completion client recorded in a trace. *)
Definition completion_calls (tr : list event) : list ChatCompletionCreateParams :=
  omap (fun ev => match ev with ChatCompletionsCreate p => Some p | _ => None end) tr.

(** The envelope invariant of [AuditResponse]. *)
Definition well_formed_envelope (r : AuditResponse) : Prop :=
  if success r
  then is_Some (results r) /\ error r = None
  else results r = None /\ is_Some (error r).

Definition bad_request : NextResponse :=
  {| response_status := 400;
     response_body :=
       {| success := false; results := None;
          error := Some (lit "Bad Request: Missing or invalid contractCode in request body.") |} |}.

(** The statuses [NextResponse.json] accepts for a response with a body. *)
Definition usable_status (status : N) : bool :=
  in_status_range status && negb (null_body_status status).

(** What [req.json()] or the completion call of a valid request rejects
    with: the errors that come to the [try] block from outside. *)
Definition rejected_with (openai : OpenAI) (req : NextRequest) (e : thrown) : Prop :=
  json req = Rejected e
  \/ exists properties code,
       json req = Fulfilled (JObject properties)
       /\ properties !! lit "contractCode" = Some (JString code)
       /\ JsString.trim code <> []
       /\ openai (completion_params (prompt_of code)) = Rejected e.

(** ** Sample inputs *)

Definition sample_env : gmap jsstring jsstring :=
  {[ lit "OPENAI_API_KEY" := lit "sk-test" ]}.

Definition request_with_body (body : jsvalue) : NextRequest :=
  {| json := Fulfilled body |}.

Definition body_with_contractCode (v : jsvalue) : gmap jsstring jsvalue :=
  {[ lit "contractCode" := v ]}.

Definition sample_contract : jsstring := lit "contract C { }".

Definition completion_with (content : option jsstring) : ChatCompletion :=
  {| choices := [ {| message := Some {| message_content := content |} |} ] |}.

Definition mock_returning (completion : ChatCompletion) : OpenAI :=
  fun _ => Fulfilled completion.

Definition mock_throwing (e : thrown) : OpenAI :=
  fun _ => Rejected e.

(** * Properties *)

(** ** Strings *)

Module JsStringFacts.
Import JsString.

Lemma eqb_eq (a b : t) : eqb a b = true <-> a = b.
Proof. unfold eqb. apply bool_decide_eq_true. Qed.

Lemma eqb_neq (a b : t) : eqb a b = false <-> a <> b.
Proof. unfold eqb. apply bool_decide_eq_false. Qed.

Lemma trimStart_all_white_space (s : t) :
  forallb is_white_space s = true -> trimStart s = [].
Proof.
  induction s as [|c s IH]; cbn; [reflexivity|].
  intros H. apply andb_prop in H as [Hc Hs]. rewrite Hc. auto.
Qed.

Lemma trim_all_white_space (s : t) :
  forallb is_white_space s = true -> trim s = [].
Proof.
  intros H. unfold trim. rewrite trimStart_all_white_space by assumption.
  reflexivity.
Qed.

Lemma trim_nil : trim [] = [].
Proof. reflexivity. Qed.

Lemma trim_nonempty (s : t) : trim s <> [] -> s <> [].
Proof. intros H ->. apply H, trim_nil. Qed.

Lemma startsWith_app (p s : t) : startsWith p (p ++ s) = true.
Proof.
  induction p as [|c p IH]; cbn; [reflexivity|].
  rewrite N.eqb_refl. exact IH.
Qed.

Lemma includes_startsWith (s sub : t) :
  startsWith sub s = true -> includes s sub = true.
Proof. intros H. destruct s; cbn [includes]; rewrite H; reflexivity. Qed.

Lemma includes_app (a sub b : t) : includes (a ++ sub ++ b) sub = true.
Proof.
  induction a as [|c a IH]; cbn [app].
  - apply includes_startsWith, startsWith_app.
  - cbn [includes]. rewrite IH. apply orb_true_r.
Qed.

End JsStringFacts.

(** ** Running the handler *)

Section Runs.

Variable process_env : gmap jsstring jsstring.
Variable openai : OpenAI.

Lemma typeof_string (v : jsvalue) :
  JsString.eqb (typeof v) (lit "string") = true <-> exists s, v = JString s.
Proof.
  split.
  - destruct v; try discriminate. eauto.
  - intros [s ->]. reflexivity.
Qed.

Lemma missing_or_invalid_string (code : jsstring) :
  missing_or_invalid (JString code) = JsString.eqb (JsString.trim code) [].
Proof.
  unfold missing_or_invalid. cbn [ToBoolean typeof string_value].
  change (JsString.eqb (lit "string") (lit "string")) with true.
  cbn [negb orb]. rewrite negb_involutive, orb_false_r.
  destruct (JsString.eqb code []) eqn:H; [|reflexivity].
  apply JsStringFacts.eqb_eq in H as ->. reflexivity.
Qed.

Lemma missing_or_invalid_not_string (v : jsvalue) :
  (forall s, v <> JString s) -> missing_or_invalid v = true.
Proof.
  intros H. unfold missing_or_invalid.
  destruct v as [| |b|x|s|l|m]; try (exfalso; exact (H s eq_refl));
    cbn [typeof];
    match goal with
    | |- context [JsString.eqb ?a ?b] =>
        change (JsString.eqb a b) with false
    end;
    cbn [negb]; rewrite orb_true_r; reflexivity.
Qed.

Lemma missing_or_invalid_valid (code : jsstring) :
  JsString.trim code <> [] -> missing_or_invalid (JString code) = false.
Proof.
  intros H. rewrite missing_or_invalid_string.
  apply JsStringFacts.eqb_neq. exact H.
Qed.

Lemma audit_run (code : jsstring) :
  audit openai code =
  let params := completion_params (prompt_of code) in
  let sending := ConsoleLog (lit "Sending request to OpenAI...") in
  let received := ConsoleLog (lit "Received response from OpenAI.") in
  match openai params with
  | Rejected e => ([sending; ChatCompletionsCreate params], Rejected e)
  | Fulfilled completion =>
      match first_content completion with
      | Some (c :: text) =>
          ([sending; ChatCompletionsCreate params; received],
           Fulfilled {| response_status := 200;
                        response_body :=
                          {| success := true;
                             results := Some {| aiAudit := Some (JsString.trim (c :: text)) |};
                             error := None |} |})
      | _ =>
          ([sending; ChatCompletionsCreate params; received;
            ConsoleError (lit "OpenAI response content is empty.") None],
           Rejected (Error (lit "Error") (lit "Received empty response from AI analysis.")))
      end
  end.
Proof.
  unfold audit, chat_completions_create. cbv zeta.
  destruct (openai _) as [completion|e]; [|reflexivity].
  cbn [bind console_log emit app].
  destruct (first_content completion) as [[|c text]|]; reflexivity.
Qed.

Lemma POST_not_configured (req : NextRequest) :
  ToBoolean (optional_string (process_env !! lit "OPENAI_API_KEY")) = false ->
  POST process_env openai req =
  ([ConsoleError (lit "OpenAI API key not configured") None],
   Fulfilled {| response_status := 500;
                response_body :=
                  {| success := false; results := None;
                     error := Some (lit "Server configuration error: Missing API key.") |} |}).
Proof. intros H. unfold POST. rewrite H. reflexivity. Qed.

Lemma NextResponse_json_usable (body : AuditResponse) (status : N) :
  usable_status status = true ->
  NextResponse_json body status =
  ret {| response_status := status; response_body := body |}.
Proof.
  unfold usable_status, NextResponse_json. intros H.
  apply andb_prop in H as [-> H]. apply negb_true_iff in H as ->. reflexivity.
Qed.

Lemma NextResponse_json_fulfilled (body : AuditResponse) (status : N)
    (tr : list event) (response : NextResponse) :
  NextResponse_json body status = (tr, Fulfilled response) ->
  tr = [] /\ response = {| response_status := status; response_body := body |}.
Proof.
  unfold NextResponse_json, ret, throw.
  destruct (in_status_range status); cbn [negb]; [|discriminate].
  destruct (null_body_status status); [discriminate|].
  intros [= <- <-]. auto.
Qed.

Lemma NextResponse_json_trace (body : AuditResponse) (status : N) :
  fst (NextResponse_json body status) = [].
Proof.
  unfold NextResponse_json.
  destruct (in_status_range status); cbn [negb]; [|reflexivity].
  destruct (null_body_status status); reflexivity.
Qed.

(** The [catch] clause logs the error, and that is all it logs; when it
    answers, it answers with a failure envelope, and it answers unless the
    error is an API error with a status that no response with a body can
    have. *)
Lemma on_error_run (e : thrown) :
  exists r,
    on_error e = ([ConsoleError (lit "Error in /api/audit:") (Some e)], r)
    /\ (forall response, r = Fulfilled response ->
          success (response_body response) = false
          /\ results (response_body response) = None
          /\ (exists message,
                error (response_body response) = Some message /\ message <> [])
          /\ (response_status response = 400 \/ response_status response = 500
              \/ exists name message,
                   e = APIError (Some (response_status response)) name message
                   /\ response_status response <> 0))
    /\ ((forall n name message,
           e = APIError (Some n) name message -> n = 0 \/ usable_status n = true) ->
        exists response, r = Fulfilled response).
Proof.
  assert (Hgen : forall (message : jsstring) (status : N),
    exists r,
      (let (tr', r') :=
         NextResponse_json
           {| success := false; results := None; error := Some message |} status in
       ([ConsoleError (lit "Error in /api/audit:") (Some e)] ++ tr', r'))
      = ([ConsoleError (lit "Error in /api/audit:") (Some e)], r)
      /\ (forall response, r = Fulfilled response ->
            response =
              {| response_status := status;
                 response_body :=
                   {| success := false; results := None; error := Some message |} |})
      /\ (usable_status status = true -> exists response, r = Fulfilled response)).
  { intros message status.
    destruct (NextResponse_json _ status) as [tr r] eqn:Hjson.
    pose proof (NextResponse_json_trace
                  {| success := false; results := None; error := Some message |}
                  status) as Htr.
    rewrite Hjson in Htr. cbn [fst] in Htr. subst tr.
    exists r. split; [reflexivity|]. split.
    - intros response ->. apply NextResponse_json_fulfilled in Hjson as [_ ->].
      reflexivity.
    - intros Hu. rewrite NextResponse_json_usable in Hjson by exact Hu.
      unfold ret in Hjson. injection Hjson as <-. eauto. }
  assert (Hshape : forall (message : jsstring) (status : N) (response : NextResponse),
    message <> [] ->
    response =
      {| response_status := status;
         response_body :=
           {| success := false; results := None; error := Some message |} |} ->
    success (response_body response) = false
    /\ results (response_body response) = None
    /\ (exists message,
          error (response_body response) = Some message /\ message <> [])
    /\ response_status response = status).
  { intros message status response Hm ->. cbn. repeat split; eauto. }
  unfold on_error, console_error_with, emit, bind.
  destruct e as [m|st n m|n m|v].
  - destruct (JsString.includes m _).
    + destruct (Hgen (lit "Bad Request: Invalid JSON format in request body.") 400)
        as (r & Hr & Hval & Hex).
      exists r. split; [exact Hr|]. split; [|intros _; apply Hex; reflexivity].
      intros response Hresp.
      apply Hval in Hresp.
      apply Hshape in Hresp as (Hs & Hres & Hmsg & Hst); [|discriminate].
      repeat split; auto; rewrite Hst; auto.
    + destruct (Hgen (lit "Internal Server Error: " ++ m) 500)
        as (r & Hr & Hval & Hex).
      exists r. split; [exact Hr|]. split; [|intros _; apply Hex; reflexivity].
      intros response Hresp.
      apply Hval in Hresp.
      apply Hshape in Hresp as (Hs & Hres & Hmsg & Hst); [|discriminate].
      repeat split; auto; rewrite Hst; auto.
  - destruct (Hgen (lit "OpenAI API Error: " ++ template_status st ++ lit " "
                      ++ n ++ lit " " ++ m)
                match st with Some k => if k =? 0 then 500 else k | None => 500 end)
      as (r & Hr & Hval & Hex).
    exists r. split; [exact Hr|]. split.
    + intros response Hresp.
      apply Hval in Hresp.
      apply Hshape in Hresp as (Hs & Hres & Hmsg & Hst); [|discriminate].
      repeat split; auto.
      destruct st as [k|]; [|auto].
      destruct (N.eqb_spec k 0) as [->|Hk]; [auto|].
      right. right. exists n, m. rewrite Hst. auto.
    + intros Hok. apply Hex.
      destruct st as [k|]; [|reflexivity].
      destruct (N.eqb_spec k 0) as [->|Hk]; [reflexivity|].
      destruct (Hok k n m eq_refl); [contradiction|assumption].
  - destruct (Hgen (lit "Internal Server Error: " ++ m) 500)
      as (r & Hr & Hval & Hex).
    exists r. split; [exact Hr|]. split; [|intros _; apply Hex; reflexivity].
    intros response Hresp.
    apply Hval in Hresp.
      apply Hshape in Hresp as (Hs & Hres & Hmsg & Hst); [|discriminate].
      repeat split; auto; rewrite Hst; auto.
  - destruct (Hgen (lit "An unexpected error occurred.") 500)
      as (r & Hr & Hval & Hex).
    exists r. split; [exact Hr|]. split; [|intros _; apply Hex; reflexivity].
    intros response Hresp.
    apply Hval in Hresp.
      apply Hshape in Hresp as (Hs & Hres & Hmsg & Hst); [|discriminate].
      repeat split; auto; rewrite Hst; auto.
Qed.

Lemma on_error_envelope (e : thrown) (response : NextResponse) :
  snd (on_error e) = Fulfilled response ->
  well_formed_envelope (response_body response).
Proof.
  destruct (on_error_run e) as (r & Hrun & Hans & _). rewrite Hrun.
  cbn [snd]. intros ->. destruct (Hans response eq_refl) as (Hs & Hr & (m & He & _) & _).
  unfold well_formed_envelope. rewrite Hs, He. auto.
Qed.

(** A request that passes validation reaches the completion call. *)
Lemma POST_valid_run (req : NextRequest) (properties : gmap jsstring jsvalue)
    (code : jsstring) :
  api_key_configured process_env ->
  json req = Fulfilled (JObject properties) ->
  properties !! lit "contractCode" = Some (JString code) ->
  JsString.trim code <> [] ->
  POST process_env openai req =
  try_catch (bind ([RequestJson], Fulfilled tt) (fun _ => audit openai code)) on_error.
Proof.
  intros Hkey Hjson Hcode Htrim. unfold POST, req_json.
  rewrite Hkey, Hjson. cbn [negb bind destructure_contractCode ret].
  rewrite Hcode. cbn [default from_option id].
  rewrite (missing_or_invalid_valid code Htrim). cbn [string_value].
  destruct (audit openai code) as [tr r]. reflexivity.
Qed.

(** A body that is not [null] and fails validation is answered with 400. *)
Lemma POST_invalid_run (req : NextRequest) (body contractCode : jsvalue) :
  api_key_configured process_env ->
  json req = Fulfilled body ->
  destructure_contractCode body = ret contractCode ->
  match contractCode with
  | JString code => JsString.trim code = []
  | _ => True
  end ->
  POST process_env openai req =
  ([RequestJson],
   Fulfilled {| response_status := 400;
                response_body :=
                  {| success := false; results := None;
                     error := Some (lit "Bad Request: Missing or invalid contractCode in request body.") |} |}).
Proof.
  intros Hkey Hjson Hget Hbad. unfold POST, req_json.
  rewrite Hkey, Hjson. cbn [negb bind]. rewrite Hget. cbn [bind ret].
  assert (missing_or_invalid contractCode = true) as ->; [|reflexivity].
  destruct contractCode as [| |b|x|code|l|m];
    try (apply missing_or_invalid_not_string; discriminate).
  rewrite missing_or_invalid_string. apply JsStringFacts.eqb_eq, Hbad.
Qed.

End Runs.

(** ** The response contract *)

Section Contract.

Variable process_env : gmap jsstring jsstring.
Variable openai : OpenAI.
Variable req : NextRequest.

(** C1: with the credential configured, a JSON body whose [contractCode] is
    a string that is not empty once trimmed, and a completion whose first
    choice carries a non-empty text, the handler answers 200 with
    [{success: true, results: {aiAudit: t}}], [t] being that text trimmed. *)
Theorem POST_success_returns_trimmed_report
    (properties : gmap jsstring jsvalue) (code : jsstring)
    (completion : ChatCompletion) (text : jsstring) :
  api_key_configured process_env ->
  json req = Fulfilled (JObject properties) ->
  properties !! lit "contractCode" = Some (JString code) ->
  JsString.trim code <> [] ->
  openai (completion_params (prompt_of code)) = Fulfilled completion ->
  first_content completion = Some text ->
  text <> [] ->
  snd (POST process_env openai req) =
  Fulfilled {| response_status := 200;
               response_body :=
                 {| success := true;
                    results := Some {| aiAudit := Some (JsString.trim text) |};
                    error := None |} |}.
Proof.
  intros Hkey Hjson Hcode Htrim Hapi Hfirst Htext.
  rewrite (POST_valid_run _ _ _ _ _ Hkey Hjson Hcode Htrim), audit_run.
  cbv zeta. rewrite Hapi, Hfirst.
  destruct text as [|c text]; [congruence|]. reflexivity.
Qed.

(** C3: without the [OPENAI_API_KEY] variable the handler answers 500 with
    a failure envelope whatever the request; it neither reads the body nor
    calls the completion client. *)
Theorem POST_missing_key_short_circuits :
  process_env !! lit "OPENAI_API_KEY" = None ->
  snd (POST process_env openai req) =
    Fulfilled {| response_status := 500;
                 response_body :=
                   {| success := false; results := None;
                      error := Some (lit "Server configuration error: Missing API key.") |} |}
  /\ (RequestJson ∉ fst (POST process_env openai req))
  /\ completion_calls (fst (POST process_env openai req)) = [].
Proof.
  intros Hkey. rewrite POST_not_configured by (rewrite Hkey; reflexivity).
  cbn [fst snd]. repeat split.
  intros Hin. apply list_elem_of_singleton in Hin. discriminate.
Qed.

(** C5: with the credential configured, a body that is not valid JSON
    ([req.json()] rejects with the parser's [SyntaxError], whose message
    names JSON) is answered with 400, [success: false] and a message about
    the JSON format. *)
Theorem POST_invalid_json_is_bad_request (message : jsstring) :
  api_key_configured process_env ->
  json req = Rejected (SyntaxError message) ->
  JsString.includes message (lit "JSON") = true ->
  snd (POST process_env openai req) =
  Fulfilled {| response_status := 400;
               response_body :=
                 {| success := false; results := None;
                    error := Some (lit "Bad Request: Invalid JSON format in request body.") |} |}.
Proof.
  intros Hkey Hjson Hmsg. unfold POST, req_json. rewrite Hkey, Hjson.
  cbn [negb bind try_catch on_error console_error_with emit].
  rewrite Hmsg. reflexivity.
Qed.

(** C6 (amended): with the credential configured and a valid body, a
    structured API error thrown by the completion call is answered with
    [success: false] and the message
    ["OpenAI API Error: <status> <name> <message>"], under the error's own
    status when that is a status a response with a body can have (200 to
    599, other than 204, 205 and 304), under 500 when the error has no
    status or the status 0; for status 429 the answer is a 429 whose message
    contains ["429"]. *)
Theorem POST_upstream_error_is_propagated
    (properties : gmap jsstring jsvalue) (code : jsstring)
    (status : option N) (name message : jsstring) (statusCode : N) :
  api_key_configured process_env ->
  json req = Fulfilled (JObject properties) ->
  properties !! lit "contractCode" = Some (JString code) ->
  JsString.trim code <> [] ->
  openai (completion_params (prompt_of code)) = Rejected (APIError status name message) ->
  (status = Some statusCode /\ statusCode <> 0 /\ usable_status statusCode = true)
  \/ ((status = None \/ status = Some 0) /\ statusCode = 500) ->
  let errorMessage :=
    lit "OpenAI API Error: " ++ template_status status ++ lit " "
      ++ name ++ lit " " ++ message in
  snd (POST process_env openai req) =
    Fulfilled {| response_status := statusCode;
                 response_body :=
                   {| success := false; results := None;
                      error := Some errorMessage |} |}
  /\ (status = Some 429 -> JsString.includes errorMessage (lit "429") = true).
Proof.
  intros Hkey Hjson Hcode Htrim Hapi Hstatus errorMessage. split.
  - rewrite (POST_valid_run _ _ _ _ _ Hkey Hjson Hcode Htrim), audit_run.
    cbv zeta. rewrite Hapi.
    cbn [bind try_catch]. unfold on_error, console_error_with, emit, bind.
    assert (Hst : match status with
                  | Some n => if n =? 0 then 500 else n
                  | None => 500
                  end = statusCode).
    { destruct Hstatus as [(-> & Hnz & _)|([-> | ->] & ->)]; try reflexivity.
      destruct (N.eqb_spec statusCode 0); congruence. }
    assert (Hu : usable_status statusCode = true).
    { destruct Hstatus as [(_ & _ & Hu)|(_ & ->)]; [exact Hu|reflexivity]. }
    rewrite Hst, NextResponse_json_usable by exact Hu. reflexivity.
  - intros ->. subst errorMessage.
    change (template_status (Some 429)) with (lit "429").
    apply JsStringFacts.includes_app.
Qed.

(** C6, as first stated, fails for an API error with status 0, which
    [error.status || 500] takes for no status: the answer is a 500. *)
Lemma POST_upstream_status_zero_is_500 :
  snd (POST sample_env
         (mock_throwing (APIError (Some 0) (lit "Error") (lit "Connection error.")))
         (request_with_body (JObject (body_with_contractCode (JString sample_contract)))))
    = Fulfilled {| response_status := 500;
                   response_body :=
                     {| success := false; results := None;
                        error := Some (lit "OpenAI API Error: 0 Error Connection error.") |} |}
  /\ ~ (exists body,
          snd (POST sample_env
                 (mock_throwing (APIError (Some 0) (lit "Error") (lit "Connection error.")))
                 (request_with_body
                    (JObject (body_with_contractCode (JString sample_contract)))))
          = Fulfilled {| response_status := 0; response_body := body |}).
Proof.
  split; [reflexivity|]. intros [body H]. discriminate H.
Qed.

(** C7: with the credential configured and a valid body, a completion whose
    first choice has no content, or an empty one, is a failure: the handler
    answers 500 with [success: false] and an error message, not a report. *)
Theorem POST_empty_completion_is_failure
    (properties : gmap jsstring jsvalue) (code : jsstring)
    (completion : ChatCompletion) :
  api_key_configured process_env ->
  json req = Fulfilled (JObject properties) ->
  properties !! lit "contractCode" = Some (JString code) ->
  JsString.trim code <> [] ->
  openai (completion_params (prompt_of code)) = Fulfilled completion ->
  first_content completion = None \/ first_content completion = Some [] ->
  snd (POST process_env openai req) =
  Fulfilled {| response_status := 500;
               response_body :=
                 {| success := false; results := None;
                    error := Some (lit "Internal Server Error: Received empty response from AI analysis.") |} |}.
Proof.
  intros Hkey Hjson Hcode Htrim Hapi Hfirst.
  rewrite (POST_valid_run _ _ _ _ _ Hkey Hjson Hcode Htrim), audit_run.
  cbv zeta. rewrite Hapi. destruct Hfirst as [-> | ->]; reflexivity.
Qed.

(** C10: with the credential configured and a valid body, a first-choice
    content that is not empty but made of white space only is not an empty
    result: the handler answers 200 with [success: true] and an [aiAudit]
    that is the empty string, the test for emptiness coming before the
    trim. *)
Theorem POST_white_space_completion_is_success
    (properties : gmap jsstring jsvalue) (code : jsstring)
    (completion : ChatCompletion) (text : jsstring) :
  api_key_configured process_env ->
  json req = Fulfilled (JObject properties) ->
  properties !! lit "contractCode" = Some (JString code) ->
  JsString.trim code <> [] ->
  openai (completion_params (prompt_of code)) = Fulfilled completion ->
  first_content completion = Some text ->
  text <> [] ->
  forallb JsString.is_white_space text = true ->
  snd (POST process_env openai req) =
  Fulfilled {| response_status := 200;
               response_body :=
                 {| success := true;
                    results := Some {| aiAudit := Some [] |};
                    error := None |} |}.
Proof.
  intros Hkey Hjson Hcode Htrim Hapi Hfirst Htext Hws.
  rewrite (POST_valid_run _ _ _ _ _ Hkey Hjson Hcode Htrim), audit_run.
  cbv zeta. rewrite Hapi, Hfirst.
  destruct text as [|c text]; [congruence|].
  rewrite (JsStringFacts.trim_all_white_space _ Hws). reflexivity.
Qed.

(** C8: for a valid request the completion client is called once, with a
    prompt that is the fixed template around the contract text: the same
    text before and after for every request, the contract text as it came,
    between the opening and the closing fence of a code block. *)
Theorem POST_prompt_is_fixed_template
    (properties : gmap jsstring jsvalue) (code : jsstring) :
  api_key_configured process_env ->
  json req = Fulfilled (JObject properties) ->
  properties !! lit "contractCode" = Some (JString code) ->
  JsString.trim code <> [] ->
  completion_calls (fst (POST process_env openai req)) =
    [ {| model := lit "gpt-4";
         messages := [ {| role := lit "user";
                          content := prompt_before ++ code ++ prompt_after |} ];
         temperature := S754_finite false 7205759403792794 (-55);
         max_tokens := 3000 |} ]
  /\ (exists head, prompt_before = head ++ lit "```solidity" ++ [10] ++ lit "        ")
  /\ (exists tail, prompt_after = [10] ++ lit "        ```" ++ tail).
Proof.
  intros Hkey Hjson Hcode Htrim. split; [|split].
  - rewrite (POST_valid_run _ _ _ _ _ Hkey Hjson Hcode Htrim), audit_run.
    cbv zeta. fold (prompt_of code). fold (completion_params (prompt_of code)).
    destruct (openai _) as [completion|e].
    + destruct (first_content completion) as [[|c text]|]; reflexivity.
    + destruct (on_error_run e) as (response & Hrun & _).
      cbn [bind try_catch app]. rewrite Hrun. reflexivity.
  - exists (firstn 1897 prompt_before). vm_compute. reflexivity.
  - exists (skipn 12 prompt_after). vm_compute. reflexivity.
Qed.

(** C2: the handler does not answer every outcome with an envelope. For a
    valid request whose completion call throws an API error with status 304
    or 600, [NextResponse.json] throws inside the [catch] clause, and the
    handler rejects with that [TypeError] or [RangeError]: no response, no
    envelope. *)
Theorem POST_unusable_upstream_status_escapes :
  (exists message,
     snd (POST sample_env
            (mock_throwing (APIError (Some 304) (lit "Error") (lit "304 status code (no body)")))
            (request_with_body (JObject (body_with_contractCode (JString sample_contract)))))
     = Rejected (Error (lit "TypeError") message))
  /\ (exists message,
        snd (POST sample_env
               (mock_throwing (APIError (Some 600) (lit "Error") (lit "600 status code (no body)")))
               (request_with_body (JObject (body_with_contractCode (JString sample_contract)))))
        = Rejected (Error (lit "RangeError") message)).
Proof. split; eexists; reflexivity. Qed.

End Contract.

(** ** What the handler depends on *)

Section Determinism.

Variables env1 env2 : gmap jsstring jsstring.
Variables openai1 openai2 : OpenAI.
Variables req1 req2 : NextRequest.

Lemma audit_ext (code : jsstring) :
  openai1 (completion_params (prompt_of code)) = openai2 (completion_params (prompt_of code)) ->
  audit openai1 code = audit openai2 code.
Proof. intros H. rewrite !audit_run. cbv zeta. rewrite H. reflexivity. Qed.

(** The handler reads the environment only for whether the key is set, the
    request only through [req.json()], and the client only at the prompts
    built from the template. *)
Lemma POST_depends_only_on :
  ToBoolean (optional_string (env1 !! lit "OPENAI_API_KEY")) =
    ToBoolean (optional_string (env2 !! lit "OPENAI_API_KEY")) ->
  json req1 = json req2 ->
  (forall code, openai1 (completion_params (prompt_of code)) =
                openai2 (completion_params (prompt_of code))) ->
  POST env1 openai1 req1 = POST env2 openai2 req2.
Proof.
  intros Hkey Hjson Hapi. unfold POST, req_json. rewrite Hkey, Hjson.
  clear Hkey Hjson.
  destruct (ToBoolean (optional_string _)); [|reflexivity]. cbn [negb].
  f_equal.
  destruct (json req2) as [body|e]; [|reflexivity].
  cbn [bind].
  destruct (destructure_contractCode body) as [tr [contractCode|e]];
    cbn [bind]; [|reflexivity].
  destruct (missing_or_invalid contractCode); [reflexivity|].
  rewrite (audit_ext _ (Hapi (string_value contractCode))). reflexivity.
Qed.

End Determinism.

(** ** Validation of the body *)

Section Validation.

Variable process_env : gmap jsstring jsstring.
Variable openai : OpenAI.
Variable req : NextRequest.
Hypothesis configured : api_key_configured process_env.

(** An object without [contractCode], or with one that is not a string, or
    with a string that trims to nothing, is answered with 400. *)
Lemma POST_rejects_invalid_contractCode (properties : gmap jsstring jsvalue) :
  json req = Fulfilled (JObject properties) ->
  match properties !! lit "contractCode" with
  | Some (JString code) => JsString.trim code = []
  | _ => True
  end ->
  snd (POST process_env openai req) = Fulfilled bad_request.
Proof.
  intros Hjson Hbad.
  rewrite (POST_invalid_run process_env openai req (JObject properties)
             (default JUndefined (properties !! lit "contractCode")));
    auto.
  destruct (properties !! lit "contractCode") as [[| |b|x|code|l|m]|]; cbn; auto.
Qed.

(** So is a body that is a boolean, a number, a string or an array. *)
Lemma POST_rejects_non_object (body : jsvalue) :
  json req = Fulfilled body ->
  match body with
  | JBoolean _ | JNumber _ | JString _ | JArray _ => True
  | _ => False
  end ->
  snd (POST process_env openai req) = Fulfilled bad_request.
Proof.
  intros Hjson Hbody.
  rewrite (POST_invalid_run process_env openai req body JUndefined); auto.
  destruct body; cbn in Hbody; try contradiction; reflexivity.
Qed.

(** The body [null] is not: destructuring it throws, and the [catch]
    clause answers 500. *)
Lemma POST_null_body :
  json req = Fulfilled JNull ->
  snd (POST process_env openai req) =
  Fulfilled {| response_status := 500;
               response_body :=
                 {| success := false; results := None;
                    error := Some (lit "Internal Server Error: Cannot destructure property 'contractCode' of 'body' as it is null.") |} |}.
Proof.
  intros Hjson. unfold POST, req_json. rewrite configured, Hjson. reflexivity.
Qed.

End Validation.

(** The bodies [{}], [{"contractCode": ""}] and [{"contractCode": "   "}]. *)
Example POST_empty_object (openai : OpenAI) :
  snd (POST sample_env openai (request_with_body (JObject ∅))) = Fulfilled bad_request.
Proof. reflexivity. Qed.

Example POST_empty_contractCode (openai : OpenAI) :
  snd (POST sample_env openai
         (request_with_body (JObject (body_with_contractCode (JString [])))))
  = Fulfilled bad_request.
Proof. reflexivity. Qed.

Example POST_blank_contractCode (openai : OpenAI) :
  snd (POST sample_env openai
         (request_with_body (JObject (body_with_contractCode (JString (lit "   "))))))
  = Fulfilled bad_request.
Proof. reflexivity. Qed.

(** C4: the body [null] parses as JSON and has no [contractCode], yet the
    handler answers it with 500 and the text of the [TypeError], not with the
    400 of the validation. *)
Theorem POST_null_body_is_server_error (openai : OpenAI) :
  POST sample_env openai (request_with_body JNull) =
  ([RequestJson;
    ConsoleError (lit "Error in /api/audit:")
      (Some (Error (lit "TypeError")
               (lit "Cannot destructure property 'contractCode' of 'body' as it is null.")))],
   Fulfilled {| response_status := 500;
                response_body :=
                  {| success := false; results := None;
                     error := Some (lit "Internal Server Error: Cannot destructure property 'contractCode' of 'body' as it is null.") |} |}).
Proof. reflexivity. Qed.

(** ** The theorems at sample inputs *)

Lemma POST_success_returns_trimmed_report_witness :
  api_key_configured sample_env
  /\ JsString.trim sample_contract <> []
  /\ lit "  No issues found.  " <> []
  /\ snd (POST sample_env
            (mock_returning (completion_with (Some (lit "  No issues found.  "))))
            (request_with_body (JObject (body_with_contractCode (JString sample_contract)))))
     = Fulfilled {| response_status := 200;
                    response_body :=
                      {| success := true;
                         results := Some {| aiAudit := Some (lit "No issues found.") |};
                         error := None |} |}.
Proof.
  split; [reflexivity|]. split; [discriminate|]. split; [discriminate|].
  apply (POST_success_returns_trimmed_report sample_env
           (mock_returning (completion_with (Some (lit "  No issues found.  "))))
           (request_with_body (JObject (body_with_contractCode (JString sample_contract))))
           (body_with_contractCode (JString sample_contract)) sample_contract
           (completion_with (Some (lit "  No issues found.  ")))
           (lit "  No issues found.  "));
    try reflexivity; discriminate.
Defined.

Lemma POST_missing_key_short_circuits_witness :
  (∅ : gmap jsstring jsstring) !! lit "OPENAI_API_KEY" = None
  /\ POST ∅ (mock_returning (completion_with None)) (request_with_body JNull)
     = ([ConsoleError (lit "OpenAI API key not configured") None],
        Fulfilled {| response_status := 500;
                     response_body :=
                       {| success := false; results := None;
                          error := Some (lit "Server configuration error: Missing API key.") |} |})
  /\ completion_calls
       (fst (POST ∅ (mock_returning (completion_with None)) (request_with_body JNull)))
     = [].
Proof.
  split; [reflexivity|]. split; [reflexivity|].
  apply (POST_missing_key_short_circuits ∅ (mock_returning (completion_with None))
           (request_with_body JNull)).
  reflexivity.
Defined.

Lemma POST_invalid_json_is_bad_request_witness :
  api_key_configured sample_env
  /\ JsString.includes (lit "Unexpected end of JSON input") (lit "JSON") = true
  /\ snd (POST sample_env (mock_returning (completion_with None))
            {| json := Rejected (SyntaxError (lit "Unexpected end of JSON input")) |})
     = Fulfilled {| response_status := 400;
                    response_body :=
                      {| success := false; results := None;
                         error := Some (lit "Bad Request: Invalid JSON format in request body.") |} |}.
Proof.
  split; [reflexivity|]. split; [reflexivity|].
  apply (POST_invalid_json_is_bad_request sample_env
           (mock_returning (completion_with None))
           {| json := Rejected (SyntaxError (lit "Unexpected end of JSON input")) |}
           (lit "Unexpected end of JSON input"));
    reflexivity.
Defined.

Lemma POST_upstream_error_is_propagated_witness :
  api_key_configured sample_env
  /\ JsString.trim sample_contract <> []
  /\ ((Some 429 = Some 429 /\ 429 <> 0 /\ usable_status 429 = true)
      \/ ((Some 429 = None \/ Some 429 = Some 0) /\ 429 = 500))
  /\ snd (POST sample_env
            (mock_throwing (APIError (Some 429) (lit "Error") (lit "Rate limit reached")))
            (request_with_body (JObject (body_with_contractCode (JString sample_contract)))))
     = Fulfilled {| response_status := 429;
                    response_body :=
                      {| success := false; results := None;
                         error := Some (lit "OpenAI API Error: 429 Error Rate limit reached") |} |}
  /\ JsString.includes (lit "OpenAI API Error: 429 Error Rate limit reached") (lit "429") = true.
Proof.
  assert (Hstatus : (Some 429 = Some 429 /\ 429 <> 0 /\ usable_status 429 = true)
                    \/ ((Some 429 = None \/ Some 429 = Some 0) /\ 429 = 500)).
  { left. repeat split. discriminate. }
  split; [reflexivity|]. split; [discriminate|]. split; [exact Hstatus|].
  destruct (POST_upstream_error_is_propagated sample_env
              (mock_throwing (APIError (Some 429) (lit "Error") (lit "Rate limit reached")))
              (request_with_body (JObject (body_with_contractCode (JString sample_contract))))
              (body_with_contractCode (JString sample_contract)) sample_contract
              (Some 429) (lit "Error") (lit "Rate limit reached") 429)
    as [Hresponse Hmessage]; try reflexivity; try discriminate; try exact Hstatus.
  split; [exact Hresponse | exact (Hmessage eq_refl)].
Defined.

Lemma POST_empty_completion_is_failure_witness :
  api_key_configured sample_env
  /\ JsString.trim sample_contract <> []
  /\ first_content (completion_with (Some [])) = Some []
  /\ snd (POST sample_env (mock_returning (completion_with (Some [])))
            (request_with_body (JObject (body_with_contractCode (JString sample_contract)))))
     = Fulfilled {| response_status := 500;
                    response_body :=
                      {| success := false; results := None;
                         error := Some (lit "Internal Server Error: Received empty response from AI analysis.") |} |}.
Proof.
  split; [reflexivity|]. split; [discriminate|]. split; [reflexivity|].
  apply (POST_empty_completion_is_failure sample_env
           (mock_returning (completion_with (Some [])))
           (request_with_body (JObject (body_with_contractCode (JString sample_contract))))
           (body_with_contractCode (JString sample_contract)) sample_contract
           (completion_with (Some [])));
    try reflexivity; [discriminate | right; reflexivity].
Defined.

Lemma POST_white_space_completion_is_success_witness :
  api_key_configured sample_env
  /\ JsString.trim sample_contract <> []
  /\ forallb JsString.is_white_space [32; 10; 9] = true
  /\ snd (POST sample_env (mock_returning (completion_with (Some [32; 10; 9])))
            (request_with_body (JObject (body_with_contractCode (JString sample_contract)))))
     = Fulfilled {| response_status := 200;
                    response_body :=
                      {| success := true;
                         results := Some {| aiAudit := Some [] |};
                         error := None |} |}.
Proof.
  split; [reflexivity|]. split; [discriminate|]. split; [reflexivity|].
  apply (POST_white_space_completion_is_success sample_env
           (mock_returning (completion_with (Some [32; 10; 9])))
           (request_with_body (JObject (body_with_contractCode (JString sample_contract))))
           (body_with_contractCode (JString sample_contract)) sample_contract
           (completion_with (Some [32; 10; 9])) [32; 10; 9]);
    try reflexivity; discriminate.
Defined.

Lemma POST_prompt_is_fixed_template_witness :
  api_key_configured sample_env
  /\ JsString.trim sample_contract <> []
  /\ completion_calls
       (fst (POST sample_env (mock_returning (completion_with None))
               (request_with_body (JObject (body_with_contractCode (JString sample_contract))))))
     = [ {| model := lit "gpt-4";
            messages := [ {| role := lit "user";
                             content := prompt_before ++ sample_contract ++ prompt_after |} ];
            temperature := S754_finite false 7205759403792794 (-55);
            max_tokens := 3000 |} ].
Proof.
  split; [reflexivity|]. split; [discriminate|].
  apply (POST_prompt_is_fixed_template sample_env
           (mock_returning (completion_with None))
           (request_with_body (JObject (body_with_contractCode (JString sample_contract))))
           (body_with_contractCode (JString sample_contract)) sample_contract);
    try reflexivity; discriminate.
Defined.

(** ** Edges of the [catch] clause *)

(** A [SyntaxError] whose message does not name JSON is taken for an
    internal error. *)
Lemma on_error_other_SyntaxError (process_env : gmap jsstring jsstring)
    (openai : OpenAI) (req : NextRequest) (message : jsstring) :
  api_key_configured process_env ->
  json req = Rejected (SyntaxError message) ->
  JsString.includes message (lit "JSON") = false ->
  snd (POST process_env openai req) =
  Fulfilled {| response_status := 500;
               response_body :=
                 {| success := false; results := None;
                    error := Some (lit "Internal Server Error: " ++ message) |} |}.
Proof.
  intros Hkey Hjson Hmsg. unfold POST, req_json. rewrite Hkey, Hjson.
  cbn [negb bind try_catch on_error console_error_with emit].
  rewrite Hmsg. reflexivity.
Qed.

(** [error.status || 500]: a status of 0 counts as none. *)
Lemma on_error_status_zero (name message : jsstring) :
  response_status <$> (match snd (on_error (APIError (Some 0) name message)) with
                       | Fulfilled response => Some response
                       | Rejected _ => None
                       end) = Some 500.
Proof. reflexivity. Qed.

(** * Further properties of the handler *)

(** ** What [trim] and [includes] compute *)

Module JsStringSpec.
Import JsString.

Lemma trimStart_split (s : t) :
  exists a, s = a ++ trimStart s /\ forallb is_white_space a = true.
Proof.
  induction s as [|c s (a & Hs & Ha)]; [exists []; auto|].
  cbn [trimStart]. destruct (is_white_space c) eqn:Hc.
  - exists (c :: a). cbn. rewrite Hc, Ha. split; [congruence|reflexivity].
  - exists []. auto.
Qed.

Lemma trimStart_head (s : t) (c : N) :
  head (trimStart s) = Some c -> is_white_space c = false.
Proof.
  induction s as [|d s IH]; [discriminate|].
  cbn [trimStart]. destruct (is_white_space d) eqn:Hd; [exact IH|].
  intros [= <-]. exact Hd.
Qed.

Lemma trimStart_nil_iff (s : t) :
  trimStart s = [] <-> forallb is_white_space s = true.
Proof.
  split; [|apply JsStringFacts.trimStart_all_white_space].
  intros H. destruct (trimStart_split s) as (a & Hs & Ha).
  rewrite H, app_nil_r in Hs. congruence.
Qed.

Lemma forallb_rev (s : t) :
  forallb is_white_space (rev s) = forallb is_white_space s.
Proof.
  induction s as [|c s IH]; [reflexivity|].
  cbn [rev forallb]. rewrite forallb_app, IH. cbn. rewrite andb_true_r.
  apply andb_comm.
Qed.

Lemma trimEnd_split (s : t) :
  exists b, s = trimEnd s ++ b /\ forallb is_white_space b = true.
Proof.
  unfold trimEnd. destruct (trimStart_split (rev s)) as (a & Hs & Ha).
  exists (rev a). split.
  - rewrite <- rev_app_distr, <- Hs, rev_involutive. reflexivity.
  - rewrite forallb_rev. exact Ha.
Qed.

Lemma last_rev (s : t) : last (rev s) = head s.
Proof. rewrite rev_alt. apply last_reverse. Qed.

Lemma trimEnd_last (s : t) (c : N) :
  last (trimEnd s) = Some c -> is_white_space c = false.
Proof.
  unfold trimEnd. rewrite last_rev. apply trimStart_head.
Qed.

Lemma trimEnd_nil_iff (s : t) :
  trimEnd s = [] <-> forallb is_white_space s = true.
Proof.
  unfold trimEnd. rewrite <- forallb_rev, <- trimStart_nil_iff.
  split; intros H.
  - apply (f_equal (@rev N)) in H. rewrite rev_involutive in H. exact H.
  - rewrite H. reflexivity.
Qed.

(** Trimming the end keeps a first code unit that is not white space. *)
Lemma trimEnd_head (s : t) (c : N) :
  head s = Some c -> is_white_space c = false -> head (trimEnd s) = Some c.
Proof.
  intros Hhead Hc. destruct (trimEnd_split s) as (b & Hs & Hb).
  destruct (trimEnd s) as [|d r] eqn:Hr.
  - cbn in Hs. subst b. destruct s as [|d s]; [discriminate|].
    cbn in Hhead, Hb. injection Hhead as ->. rewrite Hc in Hb. discriminate.
  - rewrite Hs in Hhead. exact Hhead.
Qed.

Lemma trim_nil_iff (s : t) :
  trim s = [] <-> forallb is_white_space s = true.
Proof.
  unfold trim. rewrite trimEnd_nil_iff.
  destruct (trimStart_split s) as (a & Hs & Ha).
  split; intros H.
  - rewrite Hs, forallb_app, Ha, H. reflexivity.
  - rewrite Hs, forallb_app, Ha in H. exact H.
Qed.

(** [trim] removes white space, and only white space, from both ends. *)
Lemma trim_spec (s : t) :
  exists a b,
    s = a ++ trim s ++ b
    /\ forallb is_white_space a = true
    /\ forallb is_white_space b = true
    /\ (forall c, head (trim s) = Some c -> is_white_space c = false)
    /\ (forall c, last (trim s) = Some c -> is_white_space c = false).
Proof.
  destruct (trimStart_split s) as (a & Hs & Ha).
  destruct (trimEnd_split (trimStart s)) as (b & Hm & Hb).
  exists a, b. unfold trim. repeat split; auto.
  - rewrite <- Hm. exact Hs.
  - intros c Hc. destruct (trimStart s) as [|d r] eqn:Hr; [discriminate|].
    pose proof (trimStart_head s d) as Hd. rewrite Hr in Hd.
    specialize (Hd eq_refl).
    rewrite (trimEnd_head (d :: r) d eq_refl Hd) in Hc.
    congruence.
  - apply trimEnd_last.
Qed.

Lemma startsWith_iff (p s : t) :
  startsWith p s = true <-> exists b, s = p ++ b.
Proof.
  revert s. induction p as [|c p IH]; intros s; cbn [startsWith].
  - split; eauto.
  - destruct s as [|d s]; [split; [discriminate|intros [b [=]]]|].
    rewrite andb_true_iff, N.eqb_eq, IH. split.
    + intros [-> [b ->]]. eauto.
    + intros [b [= -> ->]]. eauto.
Qed.

(** [includes] holds of the strings that have the other as a run of
    consecutive code units. *)
Lemma includes_iff (s sub : t) :
  includes s sub = true <-> exists a b, s = a ++ sub ++ b.
Proof.
  split; [|intros (a & b & ->); apply JsStringFacts.includes_app].
  induction s as [|c s IH]; cbn [includes]; rewrite orb_true_iff, startsWith_iff.
  - intros [[b Hb]|[=]]. exists [], b. exact Hb.
  - intros [[b Hb]|H]; [exists [], b; exact Hb|].
    destruct (IH H) as (a & b & ->). exists (c :: a), b. reflexivity.
Qed.

End JsStringSpec.

(** ** The paths through the handler *)

Section Paths.

Variable process_env : gmap jsstring jsstring.
Variable openai : OpenAI.
Variable req : NextRequest.

Lemma destructure_contractCode_string (body : jsvalue) (code : jsstring) :
  destructure_contractCode body = ret (JString code) ->
  exists properties,
    body = JObject properties
    /\ properties !! lit "contractCode" = Some (JString code).
Proof.
  destruct body as [| |b|x|s|l|m]; try discriminate.
  cbn [destructure_contractCode]. intros [= H]. exists m. split; [reflexivity|].
  destruct (m !! lit "contractCode") as [v|]; cbn in H; [|discriminate].
  congruence.
Qed.

Lemma missing_or_invalid_false (v : jsvalue) :
  missing_or_invalid v = false ->
  exists code, v = JString code /\ JsString.trim code <> [].
Proof.
  intros H. destruct v as [| |b|x|code|l|m];
    try (rewrite missing_or_invalid_not_string in H; discriminate).
  exists code. split; [reflexivity|].
  rewrite missing_or_invalid_string in H. apply JsStringFacts.eqb_neq, H.
Qed.

(** The run of a valid request, by what the completion call does. *)
Lemma valid_run (code : jsstring) :
  try_catch (bind ([RequestJson], Fulfilled tt) (fun _ => audit openai code)) on_error =
  let params := completion_params (prompt_of code) in
  let sending := ConsoleLog (lit "Sending request to OpenAI...") in
  let received := ConsoleLog (lit "Received response from OpenAI.") in
  match openai params with
  | Rejected e =>
      ([RequestJson; sending; ChatCompletionsCreate params;
        ConsoleError (lit "Error in /api/audit:") (Some e)],
       snd (on_error e))
  | Fulfilled completion =>
      match first_content completion with
      | Some (c :: text) =>
          ([RequestJson; sending; ChatCompletionsCreate params; received],
           Fulfilled {| response_status := 200;
                        response_body :=
                          {| success := true;
                             results := Some {| aiAudit := Some (JsString.trim (c :: text)) |};
                             error := None |} |})
      | _ =>
          ([RequestJson; sending; ChatCompletionsCreate params; received;
            ConsoleError (lit "OpenAI response content is empty.") None;
            ConsoleError (lit "Error in /api/audit:")
              (Some (Error (lit "Error") (lit "Received empty response from AI analysis.")))],
           Fulfilled {| response_status := 500;
                        response_body :=
                          {| success := false; results := None;
                             error := Some (lit "Internal Server Error: Received empty response from AI analysis.") |} |})
      end
  end.
Proof.
  rewrite audit_run. cbv zeta.
  destruct (openai _) as [completion|e].
  - destruct (first_content completion) as [[|c text]|]; reflexivity.
  - destruct (on_error_run e) as (response & Hrun & _).
    cbn [bind try_catch app]. rewrite Hrun. reflexivity.
Qed.

(** Every run of the handler takes one of four paths. *)
Lemma POST_cases :
  (ToBoolean (optional_string (process_env !! lit "OPENAI_API_KEY")) = false
   /\ POST process_env openai req =
      ([ConsoleError (lit "OpenAI API key not configured") None],
       Fulfilled {| response_status := 500;
                    response_body :=
                      {| success := false; results := None;
                         error := Some (lit "Server configuration error: Missing API key.") |} |}))
  \/ (api_key_configured process_env
      /\ exists e,
          (json req = Rejected e
           \/ exists body, json req = Fulfilled body
                           /\ destructure_contractCode body = throw e)
          /\ POST process_env openai req =
             ([RequestJson; ConsoleError (lit "Error in /api/audit:") (Some e)],
              snd (on_error e)))
  \/ (api_key_configured process_env
      /\ exists body contractCode,
          json req = Fulfilled body
          /\ destructure_contractCode body = ret contractCode
          /\ missing_or_invalid contractCode = true
          /\ POST process_env openai req = ([RequestJson], Fulfilled bad_request))
  \/ (api_key_configured process_env
      /\ exists properties code,
          json req = Fulfilled (JObject properties)
          /\ properties !! lit "contractCode" = Some (JString code)
          /\ JsString.trim code <> []
          /\ POST process_env openai req =
             try_catch (bind ([RequestJson], Fulfilled tt) (fun _ => audit openai code))
               on_error).
Proof.
  destruct (ToBoolean (optional_string (process_env !! lit "OPENAI_API_KEY"))) eqn:Hkey.
  2: { left. split; [reflexivity|]. apply POST_not_configured, Hkey. }
  right. fold (api_key_configured process_env) in Hkey.
  destruct (json req) as [body|e] eqn:Hjson.
  - destruct (destructure_contractCode body) as [tr [contractCode|e]] eqn:Hget.
    + assert (tr = []) as ->.
      { destruct body; cbn in Hget; unfold ret, throw in Hget; congruence. }
      destruct (missing_or_invalid contractCode) eqn:Hbad.
      * right. left. split; [exact Hkey|]. exists body, contractCode.
        repeat split; auto.
        unfold POST, req_json. rewrite Hkey, Hjson. cbn [negb bind].
        rewrite Hget. cbn [bind]. rewrite Hbad. reflexivity.
      * right. right. split; [exact Hkey|].
        destruct (missing_or_invalid_false _ Hbad) as (code & -> & Htrim).
        destruct (destructure_contractCode_string body code Hget) as (m & -> & Hm).
        exists m, code. repeat split; auto.
        apply (POST_valid_run process_env openai req m code); auto.
    + assert (tr = []) as ->.
      { destruct body; cbn in Hget; unfold ret, throw in Hget; congruence. }
      left. split; [exact Hkey|]. exists e. split; [right; exists body; auto|].
      destruct (on_error_run e) as (response & Hrun & _).
      unfold POST, req_json. rewrite Hkey, Hjson. cbn [negb bind].
      rewrite Hget. cbn [bind try_catch]. rewrite Hrun. reflexivity.
  - left. split; [exact Hkey|]. exists e. split; [left; reflexivity|].
    destruct (on_error_run e) as (response & Hrun & _).
    unfold POST, req_json. rewrite Hkey, Hjson. cbn [negb bind try_catch].
    rewrite Hrun. reflexivity.
Qed.

End Paths.

(** ** What the handler guarantees on every path *)

Section Guarantees.

Variable process_env : gmap jsstring jsstring.
Variable openai : OpenAI.
Variable req : NextRequest.

(** X1: an [OPENAI_API_KEY] set to the empty string counts as missing: the
    handler answers 500 with the configuration error, reads no body and
    calls no client. *)
Theorem POST_empty_key_short_circuits :
  process_env !! lit "OPENAI_API_KEY" = Some (lit "") ->
  POST process_env openai req =
  ([ConsoleError (lit "OpenAI API key not configured") None],
   Fulfilled {| response_status := 500;
                response_body :=
                  {| success := false; results := None;
                     error := Some (lit "Server configuration error: Missing API key.") |} |}).
Proof.
  intros H. rewrite POST_not_configured by (rewrite H; reflexivity).
  reflexivity.
Qed.

(** X2: the completion client is called only for a configured key and a
    body that is an object whose [contractCode] is a string that does not
    trim to nothing, and then once, with the prompt of that string. *)
Theorem POST_calls_completion_only_when_valid :
  completion_calls (fst (POST process_env openai req)) <> [] ->
  api_key_configured process_env
  /\ exists properties code,
       json req = Fulfilled (JObject properties)
       /\ properties !! lit "contractCode" = Some (JString code)
       /\ JsString.trim code <> []
       /\ completion_calls (fst (POST process_env openai req))
          = [completion_params (prompt_of code)].
Proof.
  intros Hcalls.
  destruct (POST_cases process_env openai req)
    as [[_ H] | [(_ & e & _ & H) | [(_ & body & v & _ & _ & _ & H)
       | (Hkey & m & code & Hjson & Hm & Htrim & H)]]];
    rewrite H in Hcalls |- *; try (exfalso; apply Hcalls; reflexivity).
  split; [exact Hkey|]. exists m, code. repeat split; auto.
  rewrite valid_run. cbv zeta.
  destruct (openai _) as [completion|e];
    [destruct (first_content completion) as [[|c text]|]|]; reflexivity.
Qed.

(** X3: with the key configured the handler reads the body first, and once. *)
Theorem POST_reads_body_once_first :
  api_key_configured process_env ->
  exists rest,
    fst (POST process_env openai req) = RequestJson :: rest
    /\ RequestJson ∉ rest.
Proof.
  intros Hkey.
  destruct (POST_cases process_env openai req)
    as [[Hno _] | [(_ & e & _ & H) | [(_ & body & v & _ & _ & _ & H)
       | (_ & m & code & _ & _ & _ & H)]]].
  - unfold api_key_configured in Hkey. congruence.
  - rewrite H. eexists. split; [reflexivity|].
    intros Hin. apply list_elem_of_singleton in Hin. discriminate.
  - rewrite H. exists []. split; [reflexivity|]. apply not_elem_of_nil.
  - rewrite H, valid_run. cbv zeta.
    destruct (openai _) as [completion|e];
      [destruct (first_content completion) as [[|c text]|]|];
      (eexists; split; [reflexivity|]);
      rewrite !not_elem_of_cons; repeat split; try discriminate;
      apply not_elem_of_nil.
Qed.

(** X4: a response with [success: true] comes only from a completion: the
    key is configured, the body is valid, the call was fulfilled with a first
    choice of non-empty content, the status is 200, the report is that
    content trimmed, and nothing was logged as an error. *)
Theorem POST_success_only_from_completion (response : NextResponse) :
  snd (POST process_env openai req) = Fulfilled response ->
  success (response_body response) = true ->
  api_key_configured process_env
  /\ exists properties code completion text,
       json req = Fulfilled (JObject properties)
       /\ properties !! lit "contractCode" = Some (JString code)
       /\ JsString.trim code <> []
       /\ openai (completion_params (prompt_of code)) = Fulfilled completion
       /\ first_content completion = Some text
       /\ text <> []
       /\ response =
            {| response_status := 200;
               response_body :=
                 {| success := true;
                    results := Some {| aiAudit := Some (JsString.trim text) |};
                    error := None |} |}
       /\ fst (POST process_env openai req) =
            [RequestJson;
             ConsoleLog (lit "Sending request to OpenAI...");
             ChatCompletionsCreate (completion_params (prompt_of code));
             ConsoleLog (lit "Received response from OpenAI.")].
Proof.
  intros Hrun Hsuccess.
  destruct (POST_cases process_env openai req)
    as [[_ H] | [(_ & e & _ & H) | [(_ & body & v & _ & _ & _ & H)
       | (Hkey & m & code & Hjson & Hm & Htrim & H)]]];
    rewrite H in Hrun |- *.
  - injection Hrun as <-. discriminate.
  - destruct (on_error_run e) as (r & He & Hans & _).
    cbn [snd] in Hrun. rewrite He in Hrun. cbn [snd] in Hrun.
    destruct (Hans _ Hrun) as (Hs & _). congruence.
  - injection Hrun as <-. discriminate.
  - split; [exact Hkey|]. rewrite valid_run in Hrun |- *. cbv zeta in Hrun |- *.
    destruct (openai _) as [completion|e] eqn:Hapi.
    + destruct (first_content completion) as [[|c text]|] eqn:Hfirst;
        injection Hrun as <-; try discriminate.
      exists m, code, completion, (c :: text). repeat split; auto.
    + destruct (on_error_run e) as (r & He & Hans & _).
      cbn [snd] in Hrun. rewrite He in Hrun. cbn [snd] in Hrun.
      destruct (Hans _ Hrun) as (Hs & _). congruence.
Qed.


(** X6: a response with [success: false] carries an error message that is
    not the empty string. *)
Theorem POST_failure_has_message (response : NextResponse) :
  snd (POST process_env openai req) = Fulfilled response ->
  success (response_body response) = false ->
  exists message,
    error (response_body response) = Some message /\ message <> [].
Proof.
  assert (Hcatch : forall e,
    snd (on_error e) = Fulfilled response ->
    exists message,
      error (response_body response) = Some message /\ message <> []).
  { intros e Hrun. destruct (on_error_run e) as (r & He & Hans & _).
    rewrite He in Hrun. cbn [snd] in Hrun.
    destruct (Hans _ Hrun) as (_ & _ & Hmsg & _). exact Hmsg. }
  intros Hrun Hfail.
  destruct (POST_cases process_env openai req)
    as [[_ H] | [(_ & e & _ & H) | [(_ & body & v & _ & _ & _ & H)
       | (_ & m & code & _ & _ & _ & H)]]];
    rewrite H in Hrun.
  - injection Hrun as <-. eexists. split; [reflexivity|discriminate].
  - apply (Hcatch e). exact Hrun.
  - injection Hrun as <-. eexists. split; [reflexivity|discriminate].
  - rewrite valid_run in Hrun. cbv zeta in Hrun.
    destruct (openai _) as [completion|e]; [|apply (Hcatch e); exact Hrun].
    destruct (first_content completion) as [[|c text]|];
      injection Hrun as <-; try discriminate;
      eexists; (split; [reflexivity|discriminate]).
Qed.

(** X16: the handler answers, and with an envelope ([results] and no
    [error] under [success: true], an [error] and no [results] under
    [success: false]), whenever no API error reaches the [catch] clause
    with a status other than 0 that a response with a body cannot have. *)
Theorem POST_answers_with_envelope :
  (forall n name message,
     rejected_with openai req (APIError (Some n) name message) ->
     n = 0 \/ usable_status n = true) ->
  exists response,
    snd (POST process_env openai req) = Fulfilled response
    /\ well_formed_envelope (response_body response).
Proof.
  intros Hok.
  assert (Hcatch : forall e, rejected_with openai req e ->
    exists response,
      snd (on_error e) = Fulfilled response
      /\ well_formed_envelope (response_body response)).
  { intros e Hrej. destruct (on_error_run e) as (r & He & _ & Hex).
    destruct Hex as [response ->].
    { intros n name message ->. apply (Hok n name message Hrej). }
    exists response. split; [rewrite He; reflexivity|].
    apply (on_error_envelope e). rewrite He. reflexivity. }
  destruct (POST_cases process_env openai req)
    as [[_ H] | [(_ & e & Hsrc & H) | [(_ & body & v & _ & _ & _ & H)
       | (Hkey & m & code & Hjson & Hm & Htrim & H)]]];
    rewrite H.
  - eexists. split; [reflexivity|]. cbn. eauto.
  - cbn [snd]. destruct Hsrc as [Hjson|(body & Hjson & Hget)].
    + apply Hcatch. left. exact Hjson.
    + destruct body; cbn in Hget; unfold ret, throw in Hget; try discriminate;
        injection Hget as <-; (eexists; split; [reflexivity|]); cbn; eauto.
  - eexists. split; [reflexivity|]. cbn. eauto.
  - rewrite valid_run. cbv zeta.
    destruct (openai _) as [completion|e] eqn:Hapi.
    + destruct (first_content completion) as [[|c text]|];
        (eexists; split; [reflexivity|]); cbn; eauto.
    + cbn [snd]. apply Hcatch. right. exists m, code. auto.
Qed.

(** What [req.json()] or the completion call rejects with reaches the
    [catch] clause: it is the last thing logged, and the clause answers. *)
Lemma POST_rejected_run (e : thrown) :
  api_key_configured process_env ->
  rejected_with openai req e ->
  snd (POST process_env openai req) = snd (on_error e)
  /\ last (fst (POST process_env openai req))
     = Some (ConsoleError (lit "Error in /api/audit:") (Some e)).
Proof.
  intros Hkey [Hjson|(m & code & Hjson & Hm & Htrim & Hapi)].
  - destruct (on_error_run e) as (r & He & _).
    unfold POST, req_json. rewrite Hkey, Hjson.
    cbn [negb bind try_catch]. rewrite He. split; reflexivity.
  - rewrite (POST_valid_run _ _ _ _ _ Hkey Hjson Hm Htrim), valid_run.
    cbv zeta. rewrite Hapi. split; reflexivity.
Qed.

(** X7: an error that is neither a [SyntaxError] nor an API error, thrown
    by [req.json()] or by the completion call, is logged and answered with
    500 and ["Internal Server Error: "] followed by its message. *)
Theorem POST_unclassified_error_is_500 (name message : jsstring) :
  api_key_configured process_env ->
  rejected_with openai req (Error name message) ->
  snd (POST process_env openai req) =
    Fulfilled {| response_status := 500;
                 response_body :=
                   {| success := false; results := None;
                      error := Some (lit "Internal Server Error: " ++ message) |} |}
  /\ last (fst (POST process_env openai req))
     = Some (ConsoleError (lit "Error in /api/audit:") (Some (Error name message))).
Proof.
  intros Hkey Hrej. destruct (POST_rejected_run _ Hkey Hrej) as [-> ->].
  split; reflexivity.
Qed.

(** X8: a thrown value that is no [Error] at all is answered with 500 and
    the fixed message ["An unexpected error occurred."]; nothing of the
    value reaches the caller. *)
Theorem POST_thrown_non_error_is_500 (v : jsvalue) :
  api_key_configured process_env ->
  rejected_with openai req (NotAnError v) ->
  snd (POST process_env openai req) =
  Fulfilled {| response_status := 500;
               response_body :=
                 {| success := false; results := None;
                    error := Some (lit "An unexpected error occurred.") |} |}.
Proof.
  intros Hkey Hrej. destruct (POST_rejected_run _ Hkey Hrej) as [-> _].
  reflexivity.
Qed.

(** X9: the [catch] clause does not tell where a [SyntaxError] comes from:
    one thrown by the completion call of a valid request, with a message
    that names JSON, is answered with 400 and the message about the JSON
    format of the request body, after the client has been called. *)
Theorem POST_completion_SyntaxError_is_bad_request
    (properties : gmap jsstring jsvalue) (code message : jsstring) :
  api_key_configured process_env ->
  json req = Fulfilled (JObject properties) ->
  properties !! lit "contractCode" = Some (JString code) ->
  JsString.trim code <> [] ->
  openai (completion_params (prompt_of code)) = Rejected (SyntaxError message) ->
  JsString.includes message (lit "JSON") = true ->
  snd (POST process_env openai req) =
    Fulfilled {| response_status := 400;
                 response_body :=
                   {| success := false; results := None;
                      error := Some (lit "Bad Request: Invalid JSON format in request body.") |} |}
  /\ completion_calls (fst (POST process_env openai req))
     = [completion_params (prompt_of code)].
Proof.
  intros Hkey Hjson Hm Htrim Hapi Hmsg.
  rewrite (POST_valid_run _ _ _ _ _ Hkey Hjson Hm Htrim), valid_run.
  cbv zeta. rewrite Hapi. cbn [fst snd on_error console_error_with emit bind].
  rewrite Hmsg. split; reflexivity.
Qed.

(** X10: for a body that parsed to something other than [null], the
    handler answers with the 400 of the validation, having done nothing but
    read the body, exactly when the body is not an object whose
    [contractCode] is a string with a code unit that is not white space. *)
Theorem POST_bad_request_iff (body : jsvalue) :
  api_key_configured process_env ->
  json req = Fulfilled body ->
  body <> JNull ->
  body <> JUndefined ->
  POST process_env openai req = ([RequestJson], Fulfilled bad_request)
  <-> (forall properties code,
         body = JObject properties ->
         properties !! lit "contractCode" = Some (JString code) ->
         forallb JsString.is_white_space code = true).
Proof.
  intros Hkey Hjson Hnull Hundef. split.
  - intros Hrun m code -> Hm.
    destruct (forallb JsString.is_white_space code) eqn:Hws; [reflexivity|].
    assert (Htrim : JsString.trim code <> []).
    { rewrite JsStringSpec.trim_nil_iff. congruence. }
    rewrite (POST_valid_run _ _ _ _ _ Hkey Hjson Hm Htrim), valid_run in Hrun.
    cbv zeta in Hrun.
    destruct (openai _) as [completion|e];
      [destruct (first_content completion) as [[|c text]|]|]; discriminate.
  - intros Hall.
    assert (exists v, destructure_contractCode body = ret v) as [v Hget].
    { destruct body; try contradiction; eexists; reflexivity. }
    apply (POST_invalid_run process_env openai req body v); auto.
    destruct v as [| |b|x|code|l|m]; auto.
    destruct (destructure_contractCode_string body code Hget) as (m & -> & Hm).
    apply JsStringSpec.trim_nil_iff. eauto.
Qed.

End Guarantees.

(** ** The validating condition and the prompt *)

(** X11: the validating [if] lets through exactly the strings that have a
    code unit that is not white space. *)
Theorem missing_or_invalid_iff (v : jsvalue) :
  missing_or_invalid v = false
  <-> exists code, v = JString code /\ forallb JsString.is_white_space code = false.
Proof.
  split.
  - intros H. destruct (missing_or_invalid_false v H) as (code & -> & Htrim).
    exists code. split; [reflexivity|].
    destruct (forallb JsString.is_white_space code) eqn:Hws; [|reflexivity].
    apply JsStringSpec.trim_nil_iff in Hws. contradiction.
  - intros (code & -> & Hws). rewrite missing_or_invalid_string.
    apply JsStringFacts.eqb_neq. rewrite JsStringSpec.trim_nil_iff. congruence.
Qed.

(** X13: contracts that differ get prompts that differ. *)
Theorem prompt_of_distinct (a b : jsstring) :
  a <> b -> prompt_of a <> prompt_of b.
Proof.
  intros Hab H. apply Hab. unfold prompt_of in H.
  apply app_inv_head, app_inv_tail in H. exact H.
Qed.

(** X12: on success the report is the content of the first choice with
    white space, and nothing else, taken off both ends: it neither starts
    nor ends with white space. *)
Theorem POST_report_is_content_trimmed
    (process_env : gmap jsstring jsstring) (openai : OpenAI) (req : NextRequest)
    (properties : gmap jsstring jsvalue) (code : jsstring)
    (completion : ChatCompletion) (text : jsstring) :
  api_key_configured process_env ->
  json req = Fulfilled (JObject properties) ->
  properties !! lit "contractCode" = Some (JString code) ->
  JsString.trim code <> [] ->
  openai (completion_params (prompt_of code)) = Fulfilled completion ->
  first_content completion = Some text ->
  text <> [] ->
  exists report before after,
    snd (POST process_env openai req) =
      Fulfilled {| response_status := 200;
                   response_body :=
                     {| success := true;
                        results := Some {| aiAudit := Some report |};
                        error := None |} |}
    /\ text = before ++ report ++ after
    /\ forallb JsString.is_white_space before = true
    /\ forallb JsString.is_white_space after = true
    /\ (forall c, head report = Some c -> JsString.is_white_space c = false)
    /\ (forall c, last report = Some c -> JsString.is_white_space c = false).
Proof.
  intros Hkey Hjson Hm Htrim Hapi Hfirst Htext.
  destruct (JsStringSpec.trim_spec text) as (a & b & Hsplit & Ha & Hb & Hhead & Hlast).
  exists (JsString.trim text), a, b. repeat split; auto.
  rewrite (POST_valid_run _ _ _ _ _ Hkey Hjson Hm Htrim), valid_run.
  cbv zeta. rewrite Hapi, Hfirst.
  destruct text as [|c text]; [congruence|reflexivity].
Qed.

(** ** What the handler does not look at *)

Section Independence.

Variables env1 env2 : gmap jsstring jsstring.
Variable openai : OpenAI.
Variables req1 req2 : NextRequest.

(** X14: the handler uses the key as a flag only: with the same client and
    request, two keys that are both set and not empty give the same
    response and the same log, so the key's value cannot show in either. *)
Theorem POST_key_value_is_not_observable (key1 key2 : jsstring) :
  env1 !! lit "OPENAI_API_KEY" = Some key1 ->
  env2 !! lit "OPENAI_API_KEY" = Some key2 ->
  key1 <> [] ->
  key2 <> [] ->
  POST env1 openai req1 = POST env2 openai req1.
Proof.
  intros H1 H2 Hk1 Hk2. apply POST_depends_only_on; auto.
  rewrite H1, H2. cbn.
  apply JsStringFacts.eqb_neq in Hk1, Hk2. rewrite Hk1, Hk2. reflexivity.
Qed.

(** X15: of an object body the handler reads [contractCode] and nothing
    else: bodies that agree on it are answered alike. *)
Theorem POST_ignores_other_fields (properties1 properties2 : gmap jsstring jsvalue) :
  json req1 = Fulfilled (JObject properties1) ->
  json req2 = Fulfilled (JObject properties2) ->
  properties1 !! lit "contractCode" = properties2 !! lit "contractCode" ->
  POST env1 openai req1 = POST env1 openai req2.
Proof.
  intros H1 H2 Hcode. unfold POST, req_json. rewrite H1, H2.
  cbn [bind destructure_contractCode]. rewrite Hcode. reflexivity.
Qed.

End Independence.

(** ** The further theorems at sample inputs *)

Lemma POST_empty_key_short_circuits_witness :
  ({[ lit "OPENAI_API_KEY" := lit "" ]} : gmap jsstring jsstring) !! lit "OPENAI_API_KEY"
    = Some (lit "")
  /\ POST {[ lit "OPENAI_API_KEY" := lit "" ]}
       (mock_returning (completion_with (Some (lit "ok"))))
       (request_with_body (JObject (body_with_contractCode (JString sample_contract))))
     = ([ConsoleError (lit "OpenAI API key not configured") None],
        Fulfilled {| response_status := 500;
                     response_body :=
                       {| success := false; results := None;
                          error := Some (lit "Server configuration error: Missing API key.") |} |}).
Proof.
  split; [reflexivity|].
  apply (POST_empty_key_short_circuits {[ lit "OPENAI_API_KEY" := lit "" ]}
           (mock_returning (completion_with (Some (lit "ok"))))
           (request_with_body (JObject (body_with_contractCode (JString sample_contract))))).
  reflexivity.
Defined.

Lemma POST_calls_completion_only_when_valid_witness :
  completion_calls
    (fst (POST sample_env (mock_returning (completion_with None))
            (request_with_body (JObject (body_with_contractCode (JString sample_contract))))))
    <> []
  /\ api_key_configured sample_env
  /\ exists properties code,
       json (request_with_body (JObject (body_with_contractCode (JString sample_contract))))
         = Fulfilled (JObject properties)
       /\ properties !! lit "contractCode" = Some (JString code)
       /\ JsString.trim code <> []
       /\ completion_calls
            (fst (POST sample_env (mock_returning (completion_with None))
                    (request_with_body (JObject (body_with_contractCode (JString sample_contract))))))
          = [completion_params (prompt_of code)].
Proof.
  split; [discriminate|].
  apply (POST_calls_completion_only_when_valid sample_env
           (mock_returning (completion_with None))
           (request_with_body (JObject (body_with_contractCode (JString sample_contract))))).
  discriminate.
Defined.

Lemma POST_reads_body_once_first_witness :
  api_key_configured sample_env
  /\ exists rest,
       fst (POST sample_env (mock_returning (completion_with None))
              (request_with_body (JObject ∅)))
         = RequestJson :: rest
       /\ RequestJson ∉ rest.
Proof.
  split; [reflexivity|].
  apply (POST_reads_body_once_first sample_env (mock_returning (completion_with None))
           (request_with_body (JObject ∅))).
  reflexivity.
Defined.

Lemma POST_success_only_from_completion_witness :
  snd (POST sample_env (mock_returning (completion_with (Some (lit " fine "))))
         (request_with_body (JObject (body_with_contractCode (JString sample_contract)))))
    = Fulfilled {| response_status := 200;
                   response_body :=
                     {| success := true;
                        results := Some {| aiAudit := Some (lit "fine") |};
                        error := None |} |}
  /\ api_key_configured sample_env
  /\ exists properties code completion text,
       json (request_with_body (JObject (body_with_contractCode (JString sample_contract))))
         = Fulfilled (JObject properties)
       /\ properties !! lit "contractCode" = Some (JString code)
       /\ JsString.trim code <> []
       /\ mock_returning (completion_with (Some (lit " fine ")))
            (completion_params (prompt_of code)) = Fulfilled completion
       /\ first_content completion = Some text
       /\ text <> []
       /\ {| response_status := 200;
             response_body :=
               {| success := true;
                  results := Some {| aiAudit := Some (lit "fine") |};
                  error := None |} |} =
            {| response_status := 200;
               response_body :=
                 {| success := true;
                    results := Some {| aiAudit := Some (JsString.trim text) |};
                    error := None |} |}
       /\ fst (POST sample_env (mock_returning (completion_with (Some (lit " fine "))))
                 (request_with_body (JObject (body_with_contractCode (JString sample_contract)))))
          = [RequestJson;
             ConsoleLog (lit "Sending request to OpenAI...");
             ChatCompletionsCreate (completion_params (prompt_of code));
             ConsoleLog (lit "Received response from OpenAI.")].
Proof.
  split; [reflexivity|].
  apply (POST_success_only_from_completion sample_env
           (mock_returning (completion_with (Some (lit " fine "))))
           (request_with_body (JObject (body_with_contractCode (JString sample_contract))))
           {| response_status := 200;
              response_body :=
                {| success := true;
                   results := Some {| aiAudit := Some (lit "fine") |};
                   error := None |} |});
    reflexivity.
Defined.

Lemma POST_unclassified_error_is_500_witness :
  api_key_configured sample_env
  /\ rejected_with (mock_returning (completion_with None))
       {| json := Rejected (Error (lit "TypeError") (lit "Body is unusable")) |}
       (Error (lit "TypeError") (lit "Body is unusable"))
  /\ snd (POST sample_env (mock_returning (completion_with None))
            {| json := Rejected (Error (lit "TypeError") (lit "Body is unusable")) |})
     = Fulfilled {| response_status := 500;
                    response_body :=
                      {| success := false; results := None;
                         error := Some (lit "Internal Server Error: Body is unusable") |} |}.
Proof.
  split; [reflexivity|]. split; [left; reflexivity|].
  apply (POST_unclassified_error_is_500 sample_env (mock_returning (completion_with None))
           {| json := Rejected (Error (lit "TypeError") (lit "Body is unusable")) |}
           (lit "TypeError") (lit "Body is unusable")).
  - reflexivity.
  - left. reflexivity.
Defined.

Lemma POST_thrown_non_error_is_500_witness :
  api_key_configured sample_env
  /\ rejected_with (mock_throwing (NotAnError (JString (lit "boom"))))
       (request_with_body (JObject (body_with_contractCode (JString sample_contract))))
       (NotAnError (JString (lit "boom")))
  /\ snd (POST sample_env (mock_throwing (NotAnError (JString (lit "boom"))))
            (request_with_body (JObject (body_with_contractCode (JString sample_contract)))))
     = Fulfilled {| response_status := 500;
                    response_body :=
                      {| success := false; results := None;
                         error := Some (lit "An unexpected error occurred.") |} |}.
Proof.
  assert (Hrej : rejected_with (mock_throwing (NotAnError (JString (lit "boom"))))
            (request_with_body (JObject (body_with_contractCode (JString sample_contract))))
            (NotAnError (JString (lit "boom")))).
  { right. exists (body_with_contractCode (JString sample_contract)), sample_contract.
    repeat split; try reflexivity. discriminate. }
  split; [reflexivity|]. split; [exact Hrej|].
  apply (POST_thrown_non_error_is_500 sample_env
           (mock_throwing (NotAnError (JString (lit "boom"))))
           (request_with_body (JObject (body_with_contractCode (JString sample_contract))))
           (JString (lit "boom")));
    [reflexivity | exact Hrej].
Defined.

Lemma POST_completion_SyntaxError_is_bad_request_witness :
  api_key_configured sample_env
  /\ JsString.trim sample_contract <> []
  /\ JsString.includes (lit "Unexpected token < in JSON at position 0") (lit "JSON") = true
  /\ snd (POST sample_env
            (mock_throwing (SyntaxError (lit "Unexpected token < in JSON at position 0")))
            (request_with_body (JObject (body_with_contractCode (JString sample_contract)))))
     = Fulfilled {| response_status := 400;
                    response_body :=
                      {| success := false; results := None;
                         error := Some (lit "Bad Request: Invalid JSON format in request body.") |} |}.
Proof.
  split; [reflexivity|]. split; [discriminate|]. split; [reflexivity|].
  apply (POST_completion_SyntaxError_is_bad_request sample_env
           (mock_throwing (SyntaxError (lit "Unexpected token < in JSON at position 0")))
           (request_with_body (JObject (body_with_contractCode (JString sample_contract))))
           (body_with_contractCode (JString sample_contract)) sample_contract
           (lit "Unexpected token < in JSON at position 0"));
    try reflexivity; discriminate.
Defined.

Lemma POST_bad_request_iff_witness :
  api_key_configured sample_env
  /\ JArray [JString sample_contract] <> JNull
  /\ JArray [JString sample_contract] <> JUndefined
  /\ (POST sample_env (mock_returning (completion_with (Some (lit "ok"))))
        (request_with_body (JArray [JString sample_contract]))
      = ([RequestJson], Fulfilled bad_request)
      <-> (forall properties code,
             JArray [JString sample_contract] = JObject properties ->
             properties !! lit "contractCode" = Some (JString code) ->
             forallb JsString.is_white_space code = true)).
Proof.
  split; [reflexivity|]. split; [discriminate|]. split; [discriminate|].
  apply (POST_bad_request_iff sample_env (mock_returning (completion_with (Some (lit "ok"))))
           (request_with_body (JArray [JString sample_contract]))
           (JArray [JString sample_contract]));
    try reflexivity; discriminate.
Defined.

Lemma POST_report_is_content_trimmed_witness :
  api_key_configured sample_env
  /\ JsString.trim sample_contract <> []
  /\ lit " fine " <> []
  /\ exists report before after,
       snd (POST sample_env (mock_returning (completion_with (Some (lit " fine "))))
              (request_with_body (JObject (body_with_contractCode (JString sample_contract)))))
         = Fulfilled {| response_status := 200;
                        response_body :=
                          {| success := true;
                             results := Some {| aiAudit := Some report |};
                             error := None |} |}
       /\ lit " fine " = before ++ report ++ after
       /\ forallb JsString.is_white_space before = true
       /\ forallb JsString.is_white_space after = true
       /\ (forall c, head report = Some c -> JsString.is_white_space c = false)
       /\ (forall c, last report = Some c -> JsString.is_white_space c = false).
Proof.
  split; [reflexivity|]. split; [discriminate|]. split; [discriminate|].
  apply (POST_report_is_content_trimmed sample_env
           (mock_returning (completion_with (Some (lit " fine "))))
           (request_with_body (JObject (body_with_contractCode (JString sample_contract))))
           (body_with_contractCode (JString sample_contract)) sample_contract
           (completion_with (Some (lit " fine "))) (lit " fine "));
    try reflexivity; discriminate.
Defined.

Lemma prompt_of_distinct_witness :
  lit "contract A { }" <> lit "contract B { }"
  /\ prompt_of (lit "contract A { }") <> prompt_of (lit "contract B { }").
Proof.
  split; [discriminate|].
  apply (prompt_of_distinct (lit "contract A { }") (lit "contract B { }")).
  discriminate.
Defined.

Lemma POST_key_value_is_not_observable_witness :
  sample_env !! lit "OPENAI_API_KEY" = Some (lit "sk-test")
  /\ ({[ lit "OPENAI_API_KEY" := lit "sk-live" ]} : gmap jsstring jsstring)
       !! lit "OPENAI_API_KEY" = Some (lit "sk-live")
  /\ lit "sk-test" <> []
  /\ lit "sk-live" <> []
  /\ POST sample_env (mock_returning (completion_with (Some (lit "ok"))))
       (request_with_body (JObject (body_with_contractCode (JString sample_contract))))
     = POST {[ lit "OPENAI_API_KEY" := lit "sk-live" ]}
         (mock_returning (completion_with (Some (lit "ok"))))
         (request_with_body (JObject (body_with_contractCode (JString sample_contract)))).
Proof.
  split; [reflexivity|]. split; [reflexivity|].
  split; [discriminate|]. split; [discriminate|].
  apply (POST_key_value_is_not_observable sample_env
           {[ lit "OPENAI_API_KEY" := lit "sk-live" ]}
           (mock_returning (completion_with (Some (lit "ok"))))
           (request_with_body (JObject (body_with_contractCode (JString sample_contract))))
           (lit "sk-test") (lit "sk-live"));
    try reflexivity; discriminate.
Defined.

Lemma POST_ignores_other_fields_witness :
  body_with_contractCode (JString sample_contract) !! lit "contractCode"
    = <[ lit "network" := JString (lit "mainnet") ]>
        (body_with_contractCode (JString sample_contract)) !! lit "contractCode"
  /\ POST sample_env (mock_returning (completion_with (Some (lit "ok"))))
       (request_with_body (JObject (body_with_contractCode (JString sample_contract))))
     = POST sample_env (mock_returning (completion_with (Some (lit "ok"))))
         (request_with_body
            (JObject (<[ lit "network" := JString (lit "mainnet") ]>
                        (body_with_contractCode (JString sample_contract))))).
Proof.
  split; [reflexivity|].
  apply (POST_ignores_other_fields sample_env
           (mock_returning (completion_with (Some (lit "ok"))))
           (request_with_body (JObject (body_with_contractCode (JString sample_contract))))
           (request_with_body
              (JObject (<[ lit "network" := JString (lit "mainnet") ]>
                          (body_with_contractCode (JString sample_contract)))))
           (body_with_contractCode (JString sample_contract))
           (<[ lit "network" := JString (lit "mainnet") ]>
              (body_with_contractCode (JString sample_contract))));
    reflexivity.
Defined.


Lemma POST_failure_has_message_witness :
  snd (POST sample_env (mock_returning (completion_with None))
         (request_with_body (JObject (body_with_contractCode (JString sample_contract)))))
    = Fulfilled {| response_status := 500;
                   response_body :=
                     {| success := false; results := None;
                        error := Some (lit "Internal Server Error: Received empty response from AI analysis.") |} |}
  /\ exists message,
       Some (lit "Internal Server Error: Received empty response from AI analysis.")
         = Some message
       /\ message <> [].
Proof.
  split; [reflexivity|].
  apply (POST_failure_has_message sample_env (mock_returning (completion_with None))
           (request_with_body (JObject (body_with_contractCode (JString sample_contract))))
           {| response_status := 500;
              response_body :=
                {| success := false; results := None;
                   error := Some (lit "Internal Server Error: Received empty response from AI analysis.") |} |});
    reflexivity.
Defined.

Lemma POST_answers_with_envelope_witness :
  (forall n name message,
     rejected_with
       (mock_throwing (APIError (Some 429) (lit "Error") (lit "Rate limit reached")))
       (request_with_body (JObject (body_with_contractCode (JString sample_contract))))
       (APIError (Some n) name message) ->
     n = 0 \/ usable_status n = true)
  /\ exists response,
       snd (POST sample_env
              (mock_throwing (APIError (Some 429) (lit "Error") (lit "Rate limit reached")))
              (request_with_body (JObject (body_with_contractCode (JString sample_contract)))))
         = Fulfilled response
       /\ well_formed_envelope (response_body response).
Proof.
  assert (Hok : forall n name message,
     rejected_with
       (mock_throwing (APIError (Some 429) (lit "Error") (lit "Rate limit reached")))
       (request_with_body (JObject (body_with_contractCode (JString sample_contract))))
       (APIError (Some n) name message) ->
     n = 0 \/ usable_status n = true).
  { intros n name message [H|(m & c & _ & _ & _ & H)]; [discriminate H|].
    injection H as <- _ _. right. reflexivity. }
  split; [exact Hok|].
  apply (POST_answers_with_envelope sample_env
           (mock_throwing (APIError (Some 429) (lit "Error") (lit "Rate limit reached")))
           (request_with_body (JObject (body_with_contractCode (JString sample_contract))))).
  exact Hok.
Defined.
